(** * ComboBox interaction controller (src/combobox/index.ts)

    A shallow embedding of the [ComboBox] widget class: its private
    fields become a record, every method becomes a computation in a
    small state-and-trace monad, and every call that leaves the widget
    (an owner callback, [invalidate], [focus], [preventDefault],
    [stopPropagation]) is appended to the trace in program order.

    JavaScript numbers are modelled as [Z] (all indices stay far below
    2^53, where doubles are exact), [%] is the truncating remainder
    [Z.rem], and [undefined] is [None]. *)

From Stdlib Require Import ZArith List String Ascii Bool Lia.
From Stdlib Require Import DecimalString DecimalZ.
Import ListNotations.
Local Open Scope string_scope.
Local Open Scope list_scope.
Local Open Scope Z_scope.

Set Implicit Arguments.

(** ** Key codes

    [Keys] is imported from [../common/util]; only its members' names
    are used by the widget, so the table is a parameter of the
    development.  [dojoKeys] holds the DOM key codes of these keys and
    serves for concrete runs. *)
Record Keys : Type := MkKeys {
  Keys_Up : Z;
  Keys_Down : Z;
  Keys_Escape : Z;
  Keys_Enter : Z;
  Keys_Space : Z;
  Keys_Home : Z;
  Keys_End : Z
}.

Definition keys_handled (K : Keys) : list Z :=
  [Keys_Up K; Keys_Down K; Keys_Escape K; Keys_Enter K; Keys_Space K;
   Keys_Home K; Keys_End K].

(** Enum members carry pairwise different codes. *)
Definition keys_distinct (K : Keys) : Prop := NoDup (keys_handled K).

Definition dojoKeys : Keys :=
  {| Keys_Up := 38; Keys_Down := 40; Keys_Escape := 27; Keys_Enter := 13;
     Keys_Space := 32; Keys_Home := 36; Keys_End := 35 |}.

(** [enum Operation { increase = 1, decrease = -1 }] *)
Inductive Operation : Type := increase | decrease.

Definition Operation_value (o : Operation) : Z :=
  match o with increase => 1 | decrease => -1 end.

(** Truthiness of an optional boolean ([undefined] is falsy). *)
Definition truthy (b : option bool) : bool :=
  match b with Some true => true | _ => false end.

(** ** Private fields of the widget *)
Record State : Type := MkState {
  _activeIndex : Z;
  _ignoreBlur : option bool;
  _menuHasVisualFocus : bool;
  _open : option bool;
  _wasOpen : option bool
}.

(** Field initialisers of the class. *)
Definition initial : State :=
  {| _activeIndex := 0; _ignoreBlur := None; _menuHasVisualFocus := false;
     _open := None; _wasOpen := None |}.

Definition with_activeIndex (i : Z) (s : State) : State :=
  MkState i (_ignoreBlur s) (_menuHasVisualFocus s) (_open s) (_wasOpen s).
Definition with_ignoreBlur (b : option bool) (s : State) : State :=
  MkState (_activeIndex s) b (_menuHasVisualFocus s) (_open s) (_wasOpen s).
Definition with_menuHasVisualFocus (b : bool) (s : State) : State :=
  MkState (_activeIndex s) (_ignoreBlur s) b (_open s) (_wasOpen s).
Definition with_open (b : option bool) (s : State) : State :=
  MkState (_activeIndex s) (_ignoreBlur s) (_menuHasVisualFocus s) b (_wasOpen s).
Definition with_wasOpen (b : option bool) (s : State) : State :=
  MkState (_activeIndex s) (_ignoreBlur s) (_menuHasVisualFocus s) (_open s) b.

(** [DNode] of the framework: a string, [null], [undefined] or a
    virtual node object. *)
Inductive DNode : Type :=
| DString (s : string)
| DNull
| DUndefined
| DObject.

(** The template literal [`${d}`] of a [DNode]. *)
Definition template_DNode (d : DNode) : string :=
  match d with
  | DString s => s
  | DNull => "null"
  | DUndefined => "undefined"
  | DObject => "[object Object]"
  end.

(** [valid?: { valid?: boolean; message?: string } | boolean] *)
Inductive ValidProperty : Type :=
| ValidBoolean (b : bool)
| ValidObject (v : option bool) (m : option string).

Section ComboBox.

(** The type of result items ([any] in the source) and their default
    string representation [`${r}`]. *)
Variable R : Type.
Variable show : R -> string.

(** A value read out of the results array: [None] is the [undefined]
    of an index outside the array. *)
Definition any : Type := option R.

Definition template_any (x : any) : string :=
  match x with Some r => show r | None => "undefined" end.

(** ** Properties supplied by the owner

    An optional function-valued property that returns a value is an
    [option] of a function; a [void] callback is a flag telling whether
    the owner supplied it, its invocations being recorded in the trace. *)
Record Properties : Type := MkProperties {
  clearable : option bool;
  disabled : option bool;
  getResultLabel : option (any -> DNode);
  getResultSelected : option (any -> bool);
  getResultValue : option (any -> string);
  helperText : option string;
  isResultDisabled : option (any -> bool);
  label : option string;
  onBlur : bool;
  onFocus : bool;
  onMenuChange : bool;
  onOut : bool;
  onOver : bool;
  onRequestResults : bool;
  onResultSelect : bool;
  onValue : bool;
  openOnFocus : option bool;
  readOnly : option bool;
  results : option (list R);
  valid : option ValidProperty;
  value : option string
}.

(** Calls that leave the widget, in program order. *)
Inductive Call : Type :=
| Invalidate
| Focus
| PreventDefault
| StopPropagation
| OnBlur
| OnFocus
| OnMenuChange (open : bool)
| OnOut
| OnOver
| OnRequestResults
| OnResultSelect (result : any)
| OnValue (v : string).

(** ** The monad of methods: state passing plus a trace of calls *)
Definition M (A : Type) : Type := State -> A * State * list Call.

Definition ret {A} (a : A) : M A := fun s => (a, s, []).

Definition bind {A B} (m : M A) (k : A -> M B) : M B :=
  fun s =>
    let '(a, s1, t1) := m s in
    let '(b, s2, t2) := k a s1 in
    (b, s2, t1 ++ t2).

Definition get : M State := fun s => (s, s, []).
Definition modify (f : State -> State) : M unit := fun s => (tt, f s, []).
Definition call (c : Call) : M unit := fun s => (tt, s, [c]).

(** [cb && cb(...)]: the callback runs when the owner supplied it. *)
Definition call_if (present : bool) (c : Call) : M unit :=
  if present then call c else ret tt.

(** [cond && m] used as a statement. *)
Definition when (cond : bool) (m : M unit) : M unit :=
  if cond then m else ret tt.

Notation "x <- m ;; k" := (bind m (fun x => k))
  (at level 61, m at next level, right associativity).
Notation "m ;; k" := (bind m (fun _ => k))
  (at level 61, right associativity).

Definition exec {A} (m : M A) (s : State) : State := snd (fst (m s)).
Definition trace {A} (m : M A) (s : State) : list Call := snd (m s).

Definition invalidate : M unit := call Invalidate.

(** [results = []] in a destructuring pattern. *)
Definition results_or_empty (p : Properties) : list R :=
  match results p with Some rs => rs | None => [] end.

Definition length_of (rs : list R) : Z := Z.of_nat (List.length rs).

(** [results[index]] *)
Definition index_of (rs : list R) (index : Z) : any :=
  if index <? 0 then None else nth_error rs (Z.to_nat index).

(** ** Methods *)

Definition _closeMenu : M unit :=
  modify (with_open (Some false)) ;;
  invalidate.

Definition _getResultLabel (p : Properties) (result : any) : DNode :=
  match getResultLabel p with
  | Some f => f result
  | None => DString (template_any result)
  end.

Definition DNode_strict_eq_string (d : DNode) (v : option string) : bool :=
  match d, v with
  | DString a, Some b => String.eqb a b
  | DUndefined, None => true
  | _, _ => false
  end.

Definition _getResultSelected (p : Properties) (result : any) : bool :=
  match getResultSelected p with
  | Some f => f result
  | None => DNode_strict_eq_string (_getResultLabel p result) (value p)
  end.

(** [const { getResultValue = this.properties.getResultLabel } = ...]:
    a value extractor is a label extractor whose node is a string. *)
Definition getResultValue_or_label (p : Properties) : option (any -> DNode) :=
  match getResultValue p with
  | Some f => Some (fun r => DString (f r))
  | None => getResultLabel p
  end.

Definition _getResultValue (p : Properties) (result : any) : string :=
  match getResultValue_or_label p with
  | Some f => template_DNode (f result)
  | None => template_any result
  end.

Definition _openMenu (p : Properties) : M unit :=
  modify (with_activeIndex 0) ;;
  modify (with_open (Some true)) ;;
  call_if (onRequestResults p) OnRequestResults ;;
  invalidate.

Definition _onArrowClick (p : Properties) : M unit :=
  call StopPropagation ;;
  if negb (truthy (disabled p)) && negb (truthy (readOnly p)) then
    call Focus ;;
    _openMenu p
  else ret tt.

Definition _onClearClick (p : Properties) : M unit :=
  call StopPropagation ;;
  call Focus ;;
  invalidate ;;
  call_if (onValue p) (OnValue "").

Definition _onInputValue (p : Properties) (v : string) : M unit :=
  call_if (onValue p) (OnValue v) ;;
  when (negb (truthy (disabled p)) && negb (truthy (readOnly p))) (_openMenu p).

Definition _onInputBlur (p : Properties) : M unit :=
  s <- get ;;
  if truthy (_ignoreBlur s) then
    modify (with_ignoreBlur (Some false))
  else
    call_if (onBlur p) OnBlur ;;
    _closeMenu.

Definition _onInputFocus (p : Properties) : M unit :=
  call_if (onFocus p) OnFocus ;;
  when (negb (truthy (disabled p)) && negb (truthy (readOnly p))
        && truthy (openOnFocus p))
       (_openMenu p).

Definition _selectIndex (p : Properties) (index : Z) : M unit :=
  let rs := results_or_empty p in
  call Focus ;;
  _closeMenu ;;
  call_if (onResultSelect p) (OnResultSelect (index_of rs index)) ;;
  call_if (onValue p) (OnValue (_getResultValue p (index_of rs index))).

Definition _moveActiveIndex (p : Properties) (operation : Operation) : M unit :=
  let rs := results_or_empty p in
  if length_of rs =? 0 then
    modify (with_activeIndex 0) ;;
    invalidate
  else
    let total := length_of rs in
    s <- get ;;
    let nextIndex :=
      Z.rem (_activeIndex s + Operation_value operation + total) total in
    modify (with_activeIndex nextIndex) ;;
    invalidate.

(** [isResultDisabled = () => false] *)
Definition isResultDisabled_or_default (p : Properties) : any -> bool :=
  match isResultDisabled p with Some f => f | None => fun _ => false end.

(** The [switch] compares [key] with the cases from top to bottom; the
    [return] of the disabled branch ends a method that has nothing
    after its [switch]. *)
Definition _onInputKey (K : Keys) (p : Properties) (key : Z) : M unit :=
  let rs := results_or_empty p in
  modify (with_menuHasVisualFocus true) ;;
  if key =? Keys_Up K then
    call PreventDefault ;;
    _moveActiveIndex p decrease
  else if key =? Keys_Down K then
    call PreventDefault ;;
    s <- get ;;
    if negb (truthy (_open s)) && negb (truthy (disabled p))
       && negb (truthy (readOnly p)) then
      _openMenu p
    else if truthy (_open s) then
      _moveActiveIndex p increase
    else ret tt
  else if key =? Keys_Escape K then
    s <- get ;;
    when (truthy (_open s)) _closeMenu
  else if (key =? Keys_Enter K) || (key =? Keys_Space K) then
    s <- get ;;
    if truthy (_open s) && (length_of rs >? 0) then
      if isResultDisabled_or_default p (index_of rs (_activeIndex s)) then
        ret tt
      else
        _selectIndex p (_activeIndex s)
    else ret tt
  else if key =? Keys_Home K then
    modify (with_activeIndex 0) ;;
    invalidate
  else if key =? Keys_End K then
    modify (with_activeIndex (length_of rs - 1)) ;;
    invalidate
  else ret tt.

Definition _onMenuChange (p : Properties) : M unit :=
  if negb (onMenuChange p) then ret tt
  else
    s <- get ;;
    when (truthy (_open s) && negb (truthy (_wasOpen s)))
         (call (OnMenuChange true)) ;;
    when (negb (truthy (_open s)) && truthy (_wasOpen s))
         (call (OnMenuChange false)).

Definition _onResultHover : M unit :=
  modify (with_menuHasVisualFocus false) ;;
  invalidate.

Definition _onResultMouseDown : M unit :=
  call StopPropagation ;;
  modify (with_ignoreBlur (Some true)).

(** The fallback chain of the value handed to [onValue], as the
    specification words it: the owner's value extractor if present, else
    the label extractor, else the default string representation. *)
Definition value_by_fallback (p : Properties) (result : any) : string :=
  match getResultValue p with
  | Some valueOf => valueOf result
  | None =>
      match getResultLabel p with
      | Some labelOf => template_DNode (labelOf result)
      | None => template_any result
      end
  end.

(** The getter [validity]. *)
Definition validity (p : Properties) : option bool * option string :=
  match valid p with
  | None => (None, None)
  | Some (ValidBoolean b) => (Some b, None)
  | Some (ValidObject v m) => (v, m)
  end.

(** ** Rendering

    Only the parts of the virtual tree that depend on the widget's state
    are kept: the root's classes, the ARIA attributes of the control
    wrapper and of the input, the clear button, the helper text and the
    dropdown with the properties handed to the listbox. *)
Inductive Css : Type :=
| css_root | css_open | css_clearable | css_focused | css_invalid | css_valid.

Record ListboxNode : Type := MkListbox {
  listbox_activeIndex : Z;
  listbox_visualFocus : bool;
  listbox_optionData : list R
}.

Record HelperTextNode : Type := MkHelperText {
  helper_text : option string;
  helper_valid : option bool
}.

Record RenderResult : Type := MkRender {
  rootClasses : list (option Css);
  labelNode : option string;
  aria_expanded : bool;
  aria_owns_menu : bool;
  aria_activedescendant : option Z;
  clearButton : bool;
  helperTextNode : option HelperTextNode;
  menuNode : option ListboxNode
}.

Definition renderMenu (rs : list R) (s : State) : option ListboxNode :=
  if (length_of rs =? 0) || negb (truthy (_open s)) then None
  else Some (MkListbox (_activeIndex s) (_menuHasVisualFocus s) rs).

Definition class_if (c : bool) (k : Css) : option Css :=
  if c then Some k else None.

(** [containsFocus] is what the framework's focus meta reports for the
    root node.  On an optional boolean [this._open === true] and the
    truthiness of [this._open] are the same test. *)
Definition render (p : Properties) (containsFocus : bool) : M RenderResult :=
  let rs := results_or_empty p in
  let '(v, message) := validity p in
  s0 <- get ;;
  let menu := renderMenu rs s0 in
  _onMenuChange p ;;
  s1 <- get ;;
  (if (length_of rs =? 0) && truthy (_open s1) then
     modify (with_open (Some false)) ;;
     invalidate
   else ret tt) ;;
  s2 <- get ;;
  let classes :=
    [ Some css_root;
      class_if (truthy (_open s2)) css_open;
      class_if (truthy (clearable p)) css_clearable;
      class_if containsFocus css_focused;
      class_if (match v with Some false => true | _ => false end) css_invalid;
      class_if (match v with Some true => true | _ => false end) css_valid ] in
  modify (with_wasOpen (_open s2)) ;;
  s3 <- get ;;
  ret {| rootClasses := classes;
         labelNode := match label p with
                      | Some l => if String.eqb l "" then None else Some l
                      | None => None
                      end;
         aria_expanded := truthy (_open s3);
         aria_owns_menu := truthy (_open s3);
         aria_activedescendant :=
           if truthy (_open s3) then Some (_activeIndex s3) else None;
         clearButton := truthy (clearable p);
         helperTextNode :=
           if negb (truthy (_open s3)) then
             Some (MkHelperText (if truthy v then helperText p else message) v)
           else None;
         menuNode := menu |}.

(** ** Events routed to the widget

    The handlers the rendered tree registers: on the text input, on the
    two buttons, on the dropdown, on the listbox and on the control
    wrapper. *)
Inductive Event : Type :=
| InputKey (key : Z)
| InputValue (v : string)
| InputBlur
| InputFocus
| ArrowClick
| ClearClick
| ResultHover
| ResultMouseDown
| ActiveIndexChange (index : Z)
| OptionSelect (index : Z)
| PointerEnter
| PointerLeave.

Definition dispatch (K : Keys) (p : Properties) (e : Event) : M unit :=
  match e with
  | InputKey key => _onInputKey K p key
  | InputValue v => _onInputValue p v
  | InputBlur => _onInputBlur p
  | InputFocus => _onInputFocus p
  | ArrowClick => _onArrowClick p
  | ClearClick => _onClearClick p
  | ResultHover => _onResultHover
  | ResultMouseDown => _onResultMouseDown
  | ActiveIndexChange index =>
      modify (with_activeIndex index) ;;
      invalidate
  | OptionSelect index => _selectIndex p index
  | PointerEnter => call_if (onOver p) OnOver
  | PointerLeave => call_if (onOut p) OnOut
  end.

(** Number of calls in a trace that satisfy [f]. *)
Definition count_calls (f : Call -> bool) (t : list Call) : nat :=
  List.length (filter f t).

Definition is_OnMenuChange (b : bool) (c : Call) : bool :=
  match c with OnMenuChange b' => Bool.eqb b b' | _ => false end.
Definition is_OnRequestResults (c : Call) : bool :=
  match c with OnRequestResults => true | _ => false end.
Definition is_OnBlur (c : Call) : bool :=
  match c with OnBlur => true | _ => false end.
Definition is_OnResultSelect (c : Call) : bool :=
  match c with OnResultSelect _ => true | _ => false end.
Definition is_OnValue (c : Call) : bool :=
  match c with OnValue _ => true | _ => false end.

(** [activeIndex] addresses a row of [n] results: a position when there
    are rows, 0 when there are none. *)
Definition in_range (n a : Z) : Prop :=
  (0 < n -> 0 <= a < n) /\ (n = 0 -> a = 0).

(** What the listbox and the End key may ask for under [n] results: the
    listbox reports a row of the results it was given, and End is
    pressed on a list that has a last row. *)
Definition event_in_range (K : Keys) (n : Z) (e : Event) : Prop :=
  match e with
  | ActiveIndexChange index => in_range n index
  | InputKey key => key = Keys_End K -> 0 < n
  | _ => True
  end.

(** Successive renders, each with the properties the owner supplies for
    it. *)
Fixpoint renders (frames : list (Properties * bool)) : M unit :=
  match frames with
  | [] => ret tt
  | (p, containsFocus) :: rest =>
      render p containsFocus ;;
      renders rest
  end.

End ComboBox.

Arguments Invalidate {R}.
Arguments Focus {R}.
Arguments PreventDefault {R}.
Arguments StopPropagation {R}.
Arguments OnBlur {R}.
Arguments OnFocus {R}.
Arguments OnMenuChange {R} open.
Arguments OnOut {R}.
Arguments OnOver {R}.
Arguments OnRequestResults {R}.
Arguments OnValue {R} v.
Arguments _closeMenu {R}.
Arguments _onResultHover {R}.
Arguments _onResultMouseDown {R}.
Arguments invalidate {R}.
Arguments get {R}.
Arguments modify {R} f.

(** ** Identifiers, buttons and the remaining render helpers *)

(** [Number.isSafeInteger]: the integers a number holds exactly. *)
Definition safe_integer (n : Z) : bool :=
  Z.abs n <=? 9007199254740991.

(** The template literal [`${n}`] of an integral number: its decimal
    digits, with a minus sign when negative.  Only safe integers are
    printed; [None] stands for a number this embedding does not cover
    (beyond 2^53 the digits depend on the rounding of the double, and
    from 1e21 on the source prints an exponent). *)
Definition template_number (n : Z) : option string :=
  if safe_integer n then Some (NilEmpty.string_of_int (Z.to_int n))
  else None.

(** [_getMenuId]: [idBase] is the [uuid()] drawn at construction. *)
Definition _getMenuId (idBase : string) : string :=
  idBase ++ "-menu".



Section ComboBoxHelpers.

Variable R : Type.
Variable show : R -> string.

(** [_getResultId]: the result itself is not used.  The id is given
    for the indices [template_number] prints. *)
Definition _getResultId (idBase : string) (result : any R) (index : Z)
  : option string :=
  match template_number index with
  | Some digits => Some (idBase ++ "-result" ++ digits)%string
  | None => None
  end.




(** A run of handler invocations, each under the properties current at
    that time. *)
Fixpoint dispatch_all (K : Keys) (events : list (Properties R * Event))
  : M R unit :=
  match events with
  | [] => ret R tt
  | (p, e) :: rest =>
      bind (dispatch show K p e) (fun _ => dispatch_all K rest)
  end.

Definition is_PreventDefault (c : Call R) : bool :=
  match c with PreventDefault => true | _ => false end.
Definition is_Invalidate (c : Call R) : bool :=
  match c with Invalidate => true | _ => false end.
Definition is_any_OnMenuChange (c : Call R) : bool :=
  match c with OnMenuChange _ => true | _ => false end.

(** Neither [disabled] nor [readOnly] is set. *)
Definition enabled (p : Properties R) : bool :=
  negb (truthy (disabled p)) && negb (truthy (readOnly p)).

(** The events that open a closed menu: the Down key, typing, a click on
    the trigger, and focus under [openOnFocus]; all of them only while
    the widget is enabled. *)
Definition opening_trigger (K : Keys) (p : Properties R) (e : Event) : bool :=
  enabled p &&
  match e with
  | InputKey key => key =? Keys_Down K
  | InputValue _ => true
  | ArrowClick => true
  | InputFocus => truthy (openOnFocus p)
  | _ => false
  end.

(** The events that close an open menu: a blur that is not swallowed,
    Escape, Enter or Space on an enabled active result, and a selection
    made in the listbox. *)
Definition closing_trigger (K : Keys) (p : Properties R) (s : State)
    (e : Event) : bool :=
  match e with
  | InputBlur => negb (truthy (_ignoreBlur s))
  | InputKey key =>
      (key =? Keys_Escape K)
      || (((key =? Keys_Enter K) || (key =? Keys_Space K))
          && (length_of (results_or_empty p) >? 0)
          && negb (isResultDisabled_or_default p
                     (index_of (results_or_empty p) (_activeIndex s))))
  | OptionSelect _ => true
  | _ => false
  end.

Definition is_some {A} (x : option A) : bool :=
  match x with Some _ => true | None => false end.

End ComboBoxHelpers.

(** * Properties of the controller *)

(** Concrete owners used for runs: string results shown as themselves,
    every callback supplied. *)
Definition show_string (r : string) : string := r.

Definition owner_of (rs : list string)
    (isDisabled : option (any string -> bool))
    (v : option ValidProperty) : Properties string :=
  {| clearable := None; disabled := None; getResultLabel := None;
     getResultSelected := None; getResultValue := None;
     helperText := Some "pick one";
     isResultDisabled := isDisabled; label := None;
     onBlur := true; onFocus := true; onMenuChange := true; onOut := true;
     onOver := true; onRequestResults := true; onResultSelect := true;
     onValue := true; openOnFocus := None; readOnly := None;
     results := Some rs; valid := v; value := None |}.

Definition owner (rs : list string) : Properties string :=
  owner_of rs None None.

Definition three_results : list string := ["ant"; "bee"; "cat"].
Definition six_results : list string :=
  ["ant"; "bee"; "cat"; "dog"; "eel"; "fox"].
Definition two_results : list string := ["ant"; "bee"].

(** An open menu that the previous render already showed open. *)
Definition shown_open : State :=
  {| _activeIndex := 0; _ignoreBlur := None; _menuHasVisualFocus := false;
     _open := Some true; _wasOpen := Some true |}.

(** An owner with chosen [disabled], [getResultLabel] and [value]. *)
Definition custom_owner (rs : list string) (dis : option bool)
    (labelOf : option (any string -> DNode)) (v : option string)
  : Properties string :=
  {| clearable := None; disabled := dis; getResultLabel := labelOf;
     getResultSelected := None; getResultValue := None; helperText := None;
     isResultDisabled := None; label := None;
     onBlur := true; onFocus := true; onMenuChange := true; onOut := true;
     onOver := true; onRequestResults := true; onResultSelect := true;
     onValue := true; openOnFocus := None; readOnly := None;
     results := Some rs; valid := None; value := v |}.

Lemma dojoKeys_distinct : keys_distinct dojoKeys.
Proof.
  unfold keys_distinct, keys_handled; simpl.
  repeat constructor; simpl; intuition discriminate.
Qed.

(** Unfolds the monad so that a method applied to a state computes. *)
Ltac run_method :=
  unfold exec, trace, dispatch, _onInputKey, _onInputValue, _onInputBlur,
    _onInputFocus, _onArrowClick, _onClearClick, _onResultHover,
    _onResultMouseDown, _selectIndex, _moveActiveIndex, _openMenu,
    _closeMenu, _onMenuChange, invalidate, call_if, when, call, modify,
    get, bind, ret in *;
  cbn [fst snd] in *.

Section Facts.

Variable R : Type.
Variable show : R -> string.
Variable K : Keys.

Implicit Types (p : Properties R) (s : State).

(** ** Key table *)

Lemma keys_distinct_inv :
  keys_distinct K ->
  Keys_Up K <> Keys_Down K /\ Keys_Up K <> Keys_Escape K /\
  Keys_Up K <> Keys_Enter K /\ Keys_Up K <> Keys_Space K /\
  Keys_Up K <> Keys_Home K /\ Keys_Up K <> Keys_End K /\
  Keys_Down K <> Keys_Escape K /\ Keys_Down K <> Keys_Enter K /\
  Keys_Down K <> Keys_Space K /\ Keys_Down K <> Keys_Home K /\
  Keys_Down K <> Keys_End K /\
  Keys_Escape K <> Keys_Enter K /\ Keys_Escape K <> Keys_Space K /\
  Keys_Escape K <> Keys_Home K /\ Keys_Escape K <> Keys_End K /\
  Keys_Enter K <> Keys_Home K /\ Keys_Enter K <> Keys_End K /\
  Keys_Space K <> Keys_Home K /\ Keys_Space K <> Keys_End K /\
  Keys_Home K <> Keys_End K.
Proof.
  unfold keys_distinct, keys_handled. intro H.
  repeat match goal with
         | H : NoDup (_ :: _) |- _ => inversion H; clear H; subst
         end.
  cbn [In] in *. intuition congruence.
Qed.

Lemma unhandled_key_inv key :
  ~ In key (keys_handled K) ->
  key <> Keys_Up K /\ key <> Keys_Down K /\ key <> Keys_Escape K /\
  key <> Keys_Enter K /\ key <> Keys_Space K /\ key <> Keys_Home K /\
  key <> Keys_End K.
Proof. unfold keys_handled; cbn [In]; intuition congruence. Qed.

(** Decides every comparison of key codes left in the goal. *)
Ltac decide_keys :=
  repeat match goal with
         | |- context [Z.eqb ?a ?b] =>
             destruct (Z.eqb_spec a b); try congruence; cbn [orb andb negb]
         end.

(** ** Arithmetic of the circular move *)

Lemma rem_wrap_increase (n a : Z) :
  0 < n -> 0 <= a < n -> Z.rem (a + 1 + n) n = (a + 1) mod n.
Proof.
  intros Hn Ha. rewrite Z.rem_mod_nonneg by lia.
  replace (a + 1 + n) with (a + 1 + 1 * n) by lia.
  apply Z_mod_plus_full.
Qed.

Lemma rem_wrap_decrease (n a : Z) :
  0 < n -> 0 <= a < n -> Z.rem (a + -1 + n) n = (a - 1) mod n.
Proof.
  intros Hn Ha. rewrite Z.rem_mod_nonneg by lia.
  replace (a + -1 + n) with (a - 1 + 1 * n) by lia.
  apply Z_mod_plus_full.
Qed.

Lemma moveActiveIndex_activeIndex p s (o : Operation) :
  length_of (results_or_empty p) <> 0 ->
  _activeIndex (exec (_moveActiveIndex p o) s) =
  Z.rem (_activeIndex s + Operation_value o + length_of (results_or_empty p))
        (length_of (results_or_empty p)).
Proof.
  intro Hn. run_method.
  destruct (Z.eqb_spec (length_of (results_or_empty p)) 0); [contradiction|].
  reflexivity.
Qed.

Lemma moveActiveIndex_empty p s (o : Operation) :
  length_of (results_or_empty p) = 0 ->
  _activeIndex (exec (_moveActiveIndex p o) s) = 0.
Proof. intro Hn. run_method. rewrite Hn. reflexivity. Qed.

Lemma iter_increase p s (k : nat) :
  0 < length_of (results_or_empty p) ->
  0 <= _activeIndex s < length_of (results_or_empty p) ->
  _activeIndex (Nat.iter k (exec (_moveActiveIndex p increase)) s) =
  (_activeIndex s + Z.of_nat k) mod length_of (results_or_empty p).
Proof.
  intros Hn Ha. induction k as [|k IH].
  - rewrite Z.add_0_r, Z.mod_small; [reflexivity | lia].
  - rewrite Nat.iter_succ, moveActiveIndex_activeIndex by lia.
    rewrite IH. cbn [Operation_value].
    pose proof (Z.mod_pos_bound (_activeIndex s + Z.of_nat k)
                  (length_of (results_or_empty p)) Hn) as Hb.
    rewrite rem_wrap_increase by lia.
    rewrite Z.add_mod_idemp_l by lia. f_equal. lia.
Qed.

(** C5: with N >= 1 results and the active index i in [0, N-1], N
    increase moves lead back to i, a decrease move from 0 leads to N-1
    and an increase move from N-1 leads to 0. *)
Theorem moveActiveIndex_wraparound p s :
  1 <= length_of (results_or_empty p) ->
  0 <= _activeIndex s < length_of (results_or_empty p) ->
  _activeIndex
    (Nat.iter (List.length (results_or_empty p))
              (exec (_moveActiveIndex p increase)) s) = _activeIndex s
  /\ _activeIndex (exec (_moveActiveIndex p decrease) (with_activeIndex 0 s))
     = length_of (results_or_empty p) - 1
  /\ _activeIndex
       (exec (_moveActiveIndex p increase)
             (with_activeIndex (length_of (results_or_empty p) - 1) s)) = 0.
Proof.
  intros Hn Ha. repeat split.
  - rewrite iter_increase by lia. fold (length_of (results_or_empty p)).
    replace (_activeIndex s + length_of (results_or_empty p))
      with (_activeIndex s + 1 * length_of (results_or_empty p)) by lia.
    rewrite Z_mod_plus_full. apply Z.mod_small; lia.
  - rewrite moveActiveIndex_activeIndex by lia.
    cbn [_activeIndex with_activeIndex Operation_value].
    rewrite rem_wrap_decrease by lia.
    replace (0 - 1) with (length_of (results_or_empty p) - 1
                          + (-1) * length_of (results_or_empty p)) by lia.
    rewrite Z_mod_plus_full. apply Z.mod_small; lia.
  - rewrite moveActiveIndex_activeIndex by lia.
    cbn [_activeIndex with_activeIndex Operation_value].
    rewrite rem_wrap_increase by lia.
    replace (length_of (results_or_empty p) - 1 + 1)
      with (0 + 1 * length_of (results_or_empty p)) by lia.
    rewrite Z_mod_plus_full. apply Z.mod_small; lia.
Qed.

(** ** Opening the menu *)

Lemma openMenu_run p s :
  _openMenu p s =
  (tt, with_open (Some true) (with_activeIndex 0 s),
   (if onRequestResults p then [OnRequestResults] else []) ++ [Invalidate]).
Proof. run_method. destruct (onRequestResults p); reflexivity. Qed.

Lemma closeMenu_run s :
  @_closeMenu R s = (tt, with_open (Some false) s, [Invalidate]).
Proof. reflexivity. Qed.

(** C4: with the menu closed and neither [disabled] nor [readOnly] set,
    the Down key opens the menu, puts the active index at 0 and calls
    the owner's [onRequestResults] exactly once. *)
Theorem down_key_opens_closed_menu p s :
  keys_distinct K ->
  truthy (_open s) = false ->
  truthy (disabled p) = false ->
  truthy (readOnly p) = false ->
  _open (exec (_onInputKey show K p (Keys_Down K)) s) = Some true
  /\ _activeIndex (exec (_onInputKey show K p (Keys_Down K)) s) = 0
  /\ trace (_onInputKey show K p (Keys_Down K)) s =
     [PreventDefault]
       ++ (if onRequestResults p then [OnRequestResults] else [])
       ++ [Invalidate]
  /\ count_calls (@is_OnRequestResults R)
       (trace (_onInputKey show K p (Keys_Down K)) s)
     = (if onRequestResults p then 1 else 0)%nat.
Proof.
  intros HK Hopen Hdis Hro.
  pose proof (keys_distinct_inv HK) as Hneq.
  unfold exec, trace, _onInputKey, bind, get, modify, call.
  decide_keys; [intuition congruence|].
  cbn [_open with_menuHasVisualFocus].
  rewrite Hopen, Hdis, Hro. cbn [negb andb].
  rewrite openMenu_run.
  destruct (onRequestResults p); cbn; repeat split; reflexivity.
Qed.


(** ** Keys *)

(** C6: with the menu open, results present and the active result
    disabled by the owner's predicate, Enter and Space call neither
    [onResultSelect] nor [onValue] and leave the open flag as it was. *)
Theorem enter_on_disabled_result_is_ignored p s (key : Z) (f : any R -> bool) :
  keys_distinct K ->
  key = Keys_Enter K \/ key = Keys_Space K ->
  truthy (_open s) = true ->
  0 < length_of (results_or_empty p) ->
  isResultDisabled p = Some f ->
  f (index_of (results_or_empty p) (_activeIndex s)) = true ->
  count_calls (@is_OnResultSelect R) (trace (_onInputKey show K p key) s) = 0%nat
  /\ count_calls (@is_OnValue R) (trace (_onInputKey show K p key) s) = 0%nat
  /\ trace (_onInputKey show K p key) s = []
  /\ _open (exec (_onInputKey show K p key) s) = _open s.
Proof.
  intros HK Hkey Hopen Hn Hsome Hf.
  pose proof (keys_distinct_inv HK) as Hneq.
  assert (Hgt : (length_of (results_or_empty p) >? 0) = true)
    by (apply Z.gtb_lt; lia).
  unfold exec, trace, _onInputKey, isResultDisabled_or_default,
    bind, get, modify, ret.
  rewrite Hsome.
  destruct Hkey; subst key; decide_keys; try (exfalso; intuition congruence);
    cbn [_open _activeIndex with_menuHasVisualFocus];
    rewrite Hopen, Hgt, Hf; cbn; repeat split; reflexivity.
Qed.

(** C3, as the code has it: a key outside the seven handled ones, and
    Escape on a closed menu, call nothing and leave the open flag, the
    previous-open flag, the active index and the ignore-blur flag as
    they were; the handler's first statement sets the
    menu-visual-focus flag to true. *)
Theorem unhandled_key_only_sets_visual_focus p s (key : Z) :
  keys_distinct K ->
  ~ In key (keys_handled K)
  \/ (key = Keys_Escape K /\ truthy (_open s) = false) ->
  _onInputKey show K p key s = (tt, with_menuHasVisualFocus true s, []).
Proof.
  intros HK Hkey.
  pose proof (keys_distinct_inv HK) as Hneq.
  unfold _onInputKey, when, bind, get, modify, ret.
  destruct Hkey as [Hother | [-> Hclosed]].
  - apply unhandled_key_inv in Hother.
    decide_keys; try (exfalso; intuition congruence). reflexivity.
  - decide_keys; try (exfalso; intuition congruence).
    cbn [_open with_menuHasVisualFocus]. rewrite Hclosed. reflexivity.
Qed.

(** ** Blur after a mouse-down on a result *)

(** C7: a mouse-down on a result sets the ignore-blur flag; the next
    blur calls nothing, keeps the menu as it is and clears the flag; the
    blur after that calls [onBlur] and closes the menu. *)
Theorem mouse_down_swallows_one_blur p1 p2 s :
  let s1 := exec (@_onResultMouseDown R) s in
  let s2 := exec (_onInputBlur p1) s1 in
  _ignoreBlur s1 = Some true
  /\ trace (_onInputBlur p1) s1 = []
  /\ _open s2 = _open s
  /\ _ignoreBlur s2 = Some false
  /\ trace (_onInputBlur p2) s2 =
     (if onBlur p2 then [OnBlur] else []) ++ [Invalidate]
  /\ count_calls (@is_OnBlur R) (trace (_onInputBlur p2) s2)
     = (if onBlur p2 then 1 else 0)%nat
  /\ _open (exec (_onInputBlur p2) s2) = Some false.
Proof.
  cbv zeta. run_method. cbn.
  destruct (onBlur p2); cbn; repeat split; reflexivity.
Qed.

(** ** Selection *)

(** C8: selecting index i closes the menu, hands [results[i]] to
    [onResultSelect] and hands to [onValue] the string chosen by the
    chain value extractor, label extractor, default representation. *)
Theorem selectIndex_reports_result_and_value p s (i : Z) :
  let r := if i <? 0 then None
           else nth_error (results_or_empty p) (Z.to_nat i) in
  _open (exec (_selectIndex show p i) s) = Some false
  /\ trace (_selectIndex show p i) s =
     [Focus; Invalidate]
       ++ (if onResultSelect p then [OnResultSelect r] else [])
       ++ (if onValue p then [OnValue (_getResultValue show p r)] else [])
  /\ _getResultValue show p r = value_by_fallback show p r
  /\ (0 <= i < length_of (results_or_empty p) ->
      exists x : R,
        nth_error (results_or_empty p) (Z.to_nat i) = Some x
        /\ In x (results_or_empty p) /\ r = Some x).
Proof.
  cbv zeta. run_method. unfold index_of.
  split; [|split; [|split]].
  - destruct (onResultSelect p), (onValue p); reflexivity.
  - destruct (onResultSelect p), (onValue p); reflexivity.
  - unfold _getResultValue, getResultValue_or_label, value_by_fallback.
    destruct (getResultValue p), (getResultLabel p); reflexivity.
  - intros Hi.
    destruct (nth_error (results_or_empty p) (Z.to_nat i)) as [x|] eqn:Hx.
    + exists x. split; [reflexivity|]. split.
      * eapply nth_error_In; exact Hx.
      * destruct (Z.ltb_spec i 0); [lia | reflexivity].
    + apply nth_error_None in Hx. unfold length_of in Hi. lia.
Qed.

(** ** Rendering *)

Lemma render_open_flag p (cf : bool) s :
  _open (exec (render p cf) s) =
  (if (length_of (results_or_empty p) =? 0) && truthy (_open s)
   then Some false else _open s)
  /\ _wasOpen (exec (render p cf) s) = _open (exec (render p cf) s).
Proof.
  unfold render. destruct (validity p) as [v m]. run_method.
  destruct s as [a ib mh [[|]|] [[|]|]];
    destruct (onMenuChange p), (length_of (results_or_empty p) =? 0);
    cbn; split; reflexivity.
Qed.

(** C9: [validity] turns a boolean b into (b, undefined), a structured
    value into its two fields and an absent property into (undefined,
    undefined); the helper text is rendered exactly when the open flag
    is not set at the end of the render, and shows that pair. *)
Theorem validity_normalizes_and_helper_text_when_closed p (cf : bool) s :
  (forall b, valid p = Some (ValidBoolean b) -> validity p = (Some b, None))
  /\ (forall v m, valid p = Some (ValidObject v m) -> validity p = (v, m))
  /\ (valid p = None -> validity p = (None, None))
  /\ helperTextNode (fst (fst (render p cf s))) =
     (if truthy (_open (exec (render p cf) s)) then None
      else Some (MkHelperText
                   (if truthy (fst (validity p)) then helperText p
                    else snd (validity p))
                   (fst (validity p))))
  /\ truthy (_open (exec (render p cf) s)) =
     truthy (_open s) && negb (length_of (results_or_empty p) =? 0).
Proof.
  split; [|split; [|split; [|split]]].
  - intros b H. unfold validity. rewrite H. reflexivity.
  - intros v m H. unfold validity. rewrite H. reflexivity.
  - intros H. unfold validity. rewrite H. reflexivity.
  - unfold render. destruct (validity p) as [v m]. run_method.
    destruct s as [a ib mh [[|]|] [[|]|]];
      destruct (onMenuChange p), (length_of (results_or_empty p) =? 0);
      reflexivity.
  - destruct (render_open_flag p cf s) as [-> _].
    destruct (_open s) as [[|]|], (length_of (results_or_empty p) =? 0);
      reflexivity.
Qed.

(** ** The active index under the handlers *)

Lemma moveActiveIndex_run p s (o : Operation) :
  _moveActiveIndex p o s =
  (tt,
   with_activeIndex
     (if length_of (results_or_empty p) =? 0 then 0
      else Z.rem (_activeIndex s + Operation_value o
                  + length_of (results_or_empty p))
                 (length_of (results_or_empty p))) s,
   [Invalidate]).
Proof.
  unfold _moveActiveIndex.
  destruct (length_of (results_or_empty p) =? 0); reflexivity.
Qed.

Lemma selectIndex_state p s (i : Z) :
  exec (_selectIndex show p i) s = with_open (Some false) s.
Proof.
  run_method. destruct (onResultSelect p), (onValue p); reflexivity.
Qed.

Lemma length_of_nonneg (rs : list R) : 0 <= length_of rs.
Proof. unfold length_of. lia. Qed.

Lemma in_range_zero (n : Z) : 0 <= n -> in_range n 0.
Proof. unfold in_range. lia. Qed.

Lemma in_range_move (n a : Z) (o : Operation) :
  0 <= n -> in_range n a ->
  in_range n (if n =? 0 then 0 else Z.rem (a + Operation_value o + n) n).
Proof.
  intros Hn [Hpos Hzero]. destruct (Z.eqb_spec n 0) as [->|Hne].
  - apply in_range_zero; lia.
  - assert (0 < n) by lia. specialize (Hpos H).
    destruct o; cbn [Operation_value].
    + rewrite rem_wrap_increase by lia.
      pose proof (Z.mod_pos_bound (a + 1) n H). unfold in_range; lia.
    + rewrite rem_wrap_decrease by lia.
      pose proof (Z.mod_pos_bound (a - 1) n H). unfold in_range; lia.
Qed.

Lemma onInputKey_in_range p s (key : Z) :
  in_range (length_of (results_or_empty p)) (_activeIndex s) ->
  (key = Keys_End K -> 0 < length_of (results_or_empty p)) ->
  in_range (length_of (results_or_empty p))
           (_activeIndex (exec (_onInputKey show K p key) s)).
Proof.
  intros Hin Hend.
  pose proof (length_of_nonneg (results_or_empty p)) as Hn.
  unfold exec, _onInputKey, when, bind, get, modify, call, ret, invalidate.
  destruct (key =? Keys_Up K).
  { rewrite moveActiveIndex_run. cbn.
    now apply in_range_move with (o := decrease). }
  destruct (key =? Keys_Down K).
  { cbn [_open with_menuHasVisualFocus].
    destruct (negb (truthy (_open s)) && negb (truthy (disabled p))
              && negb (truthy (readOnly p))).
    - rewrite openMenu_run. cbn. now apply in_range_zero.
    - destruct (truthy (_open s)); [|exact Hin].
      rewrite moveActiveIndex_run. cbn.
      now apply in_range_move with (o := increase). }
  destruct (key =? Keys_Escape K).
  { cbn [_open with_menuHasVisualFocus].
    destruct (truthy (_open s)); exact Hin. }
  destruct ((key =? Keys_Enter K) || (key =? Keys_Space K)).
  { cbn [_open _activeIndex with_menuHasVisualFocus].
    destruct (truthy (_open s) && (length_of (results_or_empty p) >? 0));
      [|exact Hin].
    destruct (isResultDisabled_or_default _ _); [exact Hin|].
    pose proof (selectIndex_state p (with_menuHasVisualFocus true s)
                  (_activeIndex s)) as Hs.
    unfold exec in Hs.
    destruct (_selectIndex show p (_activeIndex s)
                (with_menuHasVisualFocus true s)) as [[u s'] t].
    cbn in Hs |- *. subst s'. exact Hin. }
  destruct (key =? Keys_Home K).
  { cbn. now apply in_range_zero. }
  destruct (Z.eqb_spec key (Keys_End K)) as [Heq|_]; [|exact Hin].
  cbn. specialize (Hend Heq). unfold in_range; lia.
Qed.

(** C2, as the code has it: a handler that starts from an active index
    in range of the current results leaves it in range, given that the
    listbox reports a row of those results and that End is pressed on a
    non-empty list; from any state Home puts the index at 0 and End,
    on a non-empty list, at N-1, and neither touches the open flag. *)
Theorem handlers_keep_activeIndex_in_range p s (e : Event) :
  keys_distinct K ->
  (in_range (length_of (results_or_empty p)) (_activeIndex s) ->
   event_in_range K (length_of (results_or_empty p)) e ->
   in_range (length_of (results_or_empty p))
            (_activeIndex (exec (dispatch show K p e) s)))
  /\ (_activeIndex (exec (dispatch show K p (InputKey (Keys_Home K))) s) = 0
      /\ _open (exec (dispatch show K p (InputKey (Keys_Home K))) s)
         = _open s)
  /\ (0 < length_of (results_or_empty p) ->
      _activeIndex (exec (dispatch show K p (InputKey (Keys_End K))) s)
      = length_of (results_or_empty p) - 1
      /\ _open (exec (dispatch show K p (InputKey (Keys_End K))) s)
         = _open s).
Proof.
  intros HK.
  pose proof (keys_distinct_inv HK) as Hneq.
  pose proof (length_of_nonneg (results_or_empty p)) as Hn.
  split; [|split].
  - intros Hin He.
    destruct e; cbn [dispatch event_in_range] in *.
    + now apply onInputKey_in_range.
    + unfold exec, _onInputValue, when, call_if, bind, call, ret.
      destruct (onValue p);
        destruct (negb (truthy (disabled p)) && negb (truthy (readOnly p)));
        try rewrite openMenu_run; cbn; auto using in_range_zero.
    + unfold exec, _onInputBlur, call_if, bind, get, modify, call, ret.
      destruct (truthy (_ignoreBlur s)), (onBlur p); exact Hin.
    + unfold exec, _onInputFocus, when, call_if, bind, call, ret.
      destruct (onFocus p);
        destruct (negb (truthy (disabled p)) && negb (truthy (readOnly p))
                  && truthy (openOnFocus p));
        try rewrite openMenu_run; cbn; auto using in_range_zero.
    + unfold exec, _onArrowClick, bind, call, ret.
      destruct (negb (truthy (disabled p)) && negb (truthy (readOnly p)));
        try rewrite openMenu_run; cbn; auto using in_range_zero.
    + unfold exec, _onClearClick, call_if, invalidate, bind, call, ret.
      destruct (onValue p); exact Hin.
    + exact Hin.
    + exact Hin.
    + exact He.
    + rewrite selectIndex_state. exact Hin.
    + unfold exec, call_if, call, ret. destruct (onOver p); exact Hin.
    + unfold exec, call_if, call, ret. destruct (onOut p); exact Hin.
  - cbn [dispatch].
    unfold exec, _onInputKey, bind, modify, invalidate, call.
    decide_keys; try (exfalso; intuition congruence).
    split; reflexivity.
  - intros _. cbn [dispatch].
    unfold exec, _onInputKey, bind, modify, invalidate, call.
    decide_keys; try (exfalso; intuition congruence).
    split; reflexivity.
Qed.

(** ** Menu-change notification *)

Lemma count_calls_app (f : Call R -> bool) (t1 t2 : list (Call R)) :
  count_calls f (t1 ++ t2) = (count_calls f t1 + count_calls f t2)%nat.
Proof. unfold count_calls. now rewrite filter_app, length_app. Qed.

Lemma trace_then {A} (m : M R A) (k : M R unit) s :
  trace (bind m (fun _ => k)) s = trace m s ++ trace k (exec m s).
Proof.
  unfold trace, exec, bind. destruct (m s) as [[a s1] t1].
  cbn [fst snd]. destruct (k s1) as [[b s2] t2]. reflexivity.
Qed.

(** A render of a closed menu whose previous render was closed too
    notifies nothing and stays closed. *)
Lemma render_closed_quiet p (cf b : bool) s :
  truthy (_open s) = false -> truthy (_wasOpen s) = false ->
  count_calls (is_OnMenuChange (R:=R) b) (trace (render p cf) s) = 0%nat
  /\ truthy (_open (exec (render p cf) s)) = false
  /\ truthy (_wasOpen (exec (render p cf) s)) = false.
Proof.
  intros Ho Hw. unfold render. destruct (validity p) as [v m]. run_method.
  destruct s as [a ib mh [[|]|] [[|]|]]; try discriminate;
    destruct (onMenuChange p), (length_of (results_or_empty p) =? 0);
    cbn; repeat split; reflexivity.
Qed.

Lemma renders_closed_quiet (frames : list (Properties R * bool)) (b : bool) s :
  truthy (_open s) = false -> truthy (_wasOpen s) = false ->
  count_calls (is_OnMenuChange (R:=R) b) (trace (renders frames) s) = 0%nat.
Proof.
  revert s. induction frames as [|[p cf] rest IH]; intros s Ho Hw.
  - reflexivity.
  - cbn [renders]. rewrite trace_then, count_calls_app.
    destruct (render_closed_quiet p cf b s Ho Hw) as (-> & Ho' & Hw').
    now rewrite IH.
Qed.

(** The close forced by an empty result list: nothing is notified in
    that render, and both flags end up closed. *)
Lemma render_forced_close p (cf : bool) s :
  length_of (results_or_empty p) = 0 -> _open s = Some true ->
  count_calls (is_OnMenuChange (R:=R) false) (trace (render p cf) s) = 0%nat
  /\ _open (exec (render p cf) s) = Some false
  /\ _wasOpen (exec (render p cf) s) = Some false.
Proof.
  intros Hn Ho. unfold render. destruct (validity p) as [v m]. run_method.
  rewrite Hn. destruct s as [a ib mh o [[|]|]]; cbn in Ho; subst o;
    destruct (onMenuChange p); cbn; repeat split; reflexivity.
Qed.

(** The close through [_closeMenu] (blur, Escape, selection) is notified
    by the next render, once. *)
Lemma closeMenu_is_notified_once p (cf : bool) s :
  _open s = Some true -> _wasOpen s = Some true ->
  count_calls (is_OnMenuChange (R:=R) false)
              (trace (render p cf) (exec (@_closeMenu R) s))
  = (if onMenuChange p then 1 else 0)%nat.
Proof.
  intros Ho Hw. unfold render. destruct (validity p) as [v m]. run_method.
  destruct s as [a ib mh o w]; cbn in Ho, Hw; subst o w.
  destruct (onMenuChange p), (length_of (results_or_empty p) =? 0);
    reflexivity.
Qed.

(** C1, as the code has it: a render with no results and the open flag
    set forces the flag to false, but neither that render nor any later
    one calls [onMenuChange] with false. *)
Theorem forced_close_is_never_notified p (cf : bool)
        (later : list (Properties R * bool)) s :
  length_of (results_or_empty p) = 0 ->
  _open s = Some true ->
  _open (exec (render p cf) s) = Some false
  /\ count_calls (is_OnMenuChange (R:=R) false)
       (trace (renders ((p, cf) :: later)) s) = 0%nat.
Proof.
  intros Hn Ho.
  destruct (render_forced_close p cf s Hn Ho) as (Hc & Ho' & Hw').
  split; [exact Ho'|].
  cbn [renders]. rewrite trace_then, count_calls_app, Hc.
  rewrite renders_closed_quiet; [reflexivity| |].
  - now rewrite Ho'.
  - now rewrite Hw'.
Qed.

End Facts.

(** * Concrete runs *)

Lemma moveActiveIndex_wraparound_witness :
  (1 <= length_of (results_or_empty (owner three_results))
   /\ 0 <= _activeIndex (with_activeIndex 1 initial)
        < length_of (results_or_empty (owner three_results)))
  /\ (_activeIndex
        (Nat.iter 3 (exec (_moveActiveIndex (owner three_results) increase))
                  (with_activeIndex 1 initial)) = 1
      /\ _activeIndex
           (exec (_moveActiveIndex (owner three_results) decrease)
                 (with_activeIndex 0 (with_activeIndex 1 initial))) = 2
      /\ _activeIndex
           (exec (_moveActiveIndex (owner three_results) increase)
                 (with_activeIndex 2 (with_activeIndex 1 initial))) = 0).
Proof.
  assert (H1 : 1 <= length_of (results_or_empty (owner three_results)))
    by (vm_compute; discriminate).
  assert (H2 : 0 <= _activeIndex (with_activeIndex 1 initial)
               < length_of (results_or_empty (owner three_results)))
    by (vm_compute; split; [discriminate | reflexivity]).
  split; [exact (conj H1 H2)|].
  exact (moveActiveIndex_wraparound (owner three_results)
           (with_activeIndex 1 initial) H1 H2).
Defined.

Lemma down_key_opens_closed_menu_witness :
  (truthy (_open initial) = false
   /\ truthy (disabled (owner three_results)) = false
   /\ truthy (readOnly (owner three_results)) = false)
  /\ _open (exec (_onInputKey show_string dojoKeys (owner three_results) 40)
              initial) = Some true
  /\ _activeIndex
       (exec (_onInputKey show_string dojoKeys (owner three_results) 40)
             initial) = 0
  /\ trace (_onInputKey show_string dojoKeys (owner three_results) 40) initial
     = [PreventDefault; OnRequestResults; Invalidate]
  /\ count_calls (@is_OnRequestResults string)
       (trace (_onInputKey show_string dojoKeys (owner three_results) 40)
              initial) = 1%nat.
Proof.
  split; [repeat split; reflexivity|].
  exact (down_key_opens_closed_menu show_string (owner three_results) initial
           dojoKeys_distinct eq_refl eq_refl eq_refl).
Defined.

Lemma enter_on_disabled_result_is_ignored_witness :
  (truthy (_open shown_open) = true
   /\ 0 < length_of (results_or_empty
                       (owner_of three_results (Some (fun _ => true)) None)))
  /\ count_calls (@is_OnResultSelect string)
    (trace (_onInputKey show_string dojoKeys
              (owner_of three_results (Some (fun _ => true)) None) 13)
           shown_open) = 0%nat
  /\ count_calls (@is_OnValue string)
       (trace (_onInputKey show_string dojoKeys
                 (owner_of three_results (Some (fun _ => true)) None) 13)
              shown_open) = 0%nat
  /\ trace (_onInputKey show_string dojoKeys
              (owner_of three_results (Some (fun _ => true)) None) 13)
           shown_open = []
  /\ _open (exec (_onInputKey show_string dojoKeys
                    (owner_of three_results (Some (fun _ => true)) None) 13)
                 shown_open) = Some true.
Proof.
  split; [split; reflexivity|].
  exact (enter_on_disabled_result_is_ignored show_string
           (owner_of three_results (Some (fun _ => true)) None) shown_open
           dojoKeys_distinct (or_introl eq_refl) eq_refl eq_refl eq_refl
           eq_refl).
Defined.

Lemma unhandled_key_not_in_table : ~ In 65 (keys_handled dojoKeys).
Proof. cbn. intuition discriminate. Qed.

Lemma unhandled_key_only_sets_visual_focus_witness :
  ~ In 65 (keys_handled dojoKeys)
  /\ _onInputKey show_string dojoKeys (owner three_results) 65 shown_open
     = (tt, with_menuHasVisualFocus true shown_open, []).
Proof.
  split; [exact unhandled_key_not_in_table|].
  exact (unhandled_key_only_sets_visual_focus show_string
           (owner three_results) shown_open dojoKeys_distinct
           (or_introl unhandled_key_not_in_table)).
Defined.

(** C3 as stated fails: the key 65 is none of the handled keys, yet the
    handler changes the state, turning the menu-visual-focus flag on. *)
Lemma unhandled_key_changes_visual_focus :
  ~ In 65 (keys_handled dojoKeys)
  /\ _menuHasVisualFocus initial = false
  /\ _menuHasVisualFocus
       (exec (_onInputKey show_string dojoKeys (owner three_results) 65)
             initial) = true
  /\ exec (_onInputKey show_string dojoKeys (owner three_results) 65) initial
     <> initial.
Proof.
  split; [exact unhandled_key_not_in_table|].
  repeat split; try reflexivity. vm_compute. discriminate.
Qed.

Lemma handlers_keep_activeIndex_in_range_witness :
  (in_range (length_of (results_or_empty (owner three_results)))
            (_activeIndex initial)
   /\ event_in_range dojoKeys
        (length_of (results_or_empty (owner three_results))) (InputKey 40)
   /\ 0 < length_of (results_or_empty (owner three_results)))
  /\ in_range 3
       (_activeIndex
          (exec (dispatch show_string dojoKeys (owner three_results)
                          (InputKey 40)) initial))
  /\ (_activeIndex
        (exec (dispatch show_string dojoKeys (owner three_results)
                        (InputKey 36)) (with_activeIndex 5 shown_open)) = 0
      /\ _open (exec (dispatch show_string dojoKeys (owner three_results)
                               (InputKey 36)) (with_activeIndex 5 shown_open))
         = Some true)
  /\ (_activeIndex
        (exec (dispatch show_string dojoKeys (owner three_results)
                        (InputKey 35)) initial) = 2
      /\ _open (exec (dispatch show_string dojoKeys (owner three_results)
                               (InputKey 35)) initial) = None).
Proof.
  assert (H1 : in_range (length_of (results_or_empty (owner three_results)))
                        (_activeIndex initial))
    by (vm_compute; split; [intros _; split; [discriminate | reflexivity]
                           | discriminate]).
  assert (H2 : event_in_range dojoKeys
                 (length_of (results_or_empty (owner three_results)))
                 (InputKey 40))
    by (vm_compute; discriminate).
  assert (H3 : 0 < length_of (results_or_empty (owner three_results)))
    by reflexivity.
  split; [exact (conj H1 (conj H2 H3))|].
  destruct (handlers_keep_activeIndex_in_range show_string
              (owner three_results) initial (InputKey 40)
              dojoKeys_distinct) as (Hr & _ & He).
  destruct (handlers_keep_activeIndex_in_range show_string
              (owner three_results) (with_activeIndex 5 shown_open)
              (InputKey 40) dojoKeys_distinct) as (_ & Hh & _).
  split; [exact (Hr H1 H2) | split; [exact Hh | exact (He H3)]].
Defined.

Lemma selectIndex_reports_result_and_value_witness :
  trace (_selectIndex show_string (owner three_results) 1) shown_open
  = [Focus; Invalidate; OnResultSelect (Some "bee"); OnValue "bee"]
  /\ _open (exec (_selectIndex show_string (owner three_results) 1)
                 shown_open) = Some false
  /\ trace (_selectIndex show_string
              (custom_owner three_results None
                 (Some (fun r => DString ("the " ++ template_any show_string r)))
                 None) 2) shown_open
     = [Focus; Invalidate; OnResultSelect (Some "cat"); OnValue "the cat"]
  /\ trace (_selectIndex show_string (owner three_results) 3) shown_open
     = [Focus; Invalidate; OnResultSelect None; OnValue "undefined"].
Proof.
  destruct (selectIndex_reports_result_and_value show_string
              (owner three_results) shown_open 1) as (Ho & Ht & _).
  destruct (selectIndex_reports_result_and_value show_string
              (custom_owner three_results None
                 (Some (fun r => DString ("the " ++ template_any show_string r)))
                 None) shown_open 2) as (_ & Hl & _).
  destruct (selectIndex_reports_result_and_value show_string
              (owner three_results) shown_open 3) as (_ & Hu & _).
  split; [exact Ht | split; [exact Ho | split; [exact Hl | exact Hu]]].
Defined.

(** C2 as stated fails: End on six results puts the active index at 5;
    the owner then supplies two results, and after the next handler
    (Escape) the index is still 5, outside [0, 1]. *)
Lemma activeIndex_stale_after_results_shrink :
  let s1 := exec (dispatch show_string dojoKeys (owner six_results)
                           (InputKey 35)) initial in
  let s2 := exec (dispatch show_string dojoKeys (owner two_results)
                           (InputKey 27)) s1 in
  length_of (results_or_empty (owner two_results)) = 2
  /\ _activeIndex s2 = 5
  /\ ~ in_range (length_of (results_or_empty (owner two_results)))
                (_activeIndex s2).
Proof.
  cbv zeta. repeat split; try reflexivity.
  vm_compute. intros [H _]. destruct (H eq_refl) as [_ H']. discriminate H'.
Qed.

(** End on an empty result list leaves the active index at -1, where
    the arrow keys put 0. *)
Example end_key_on_empty_results :
  _activeIndex (exec (_onInputKey show_string dojoKeys (owner []) 35) initial)
  = -1
  /\ _activeIndex (exec (_onInputKey show_string dojoKeys (owner []) 38)
                        initial) = 0.
Proof. split; reflexivity. Qed.

Lemma forced_close_is_never_notified_witness :
  (length_of (results_or_empty (owner [])) = 0 /\ _open shown_open = Some true)
  /\ _open (exec (render (owner []) true) shown_open) = Some false
  /\ count_calls (@is_OnMenuChange string false)
       (trace (renders [(owner [], true); (owner [], true);
                        (owner three_results, true)]) shown_open) = 0%nat.
Proof.
  split; [split; reflexivity|].
  exact (forced_close_is_never_notified (owner []) true
           [(owner [], true); (owner three_results, true)] shown_open
           eq_refl eq_refl).
Defined.

(** The whole episode from the initial state: Down opens the menu, the
    first render announces it, the results become empty, and the two
    renders that follow announce nothing although the menu has closed.
    Closing the same open menu with Escape is announced. *)
Example forced_close_episode :
  let s1 := exec (_onInputKey show_string dojoKeys (owner three_results) 40)
                 initial in
  let s2 := exec (render (owner three_results) true) s1 in
  let s3 := exec (render (owner []) true) s2 in
  trace (render (owner three_results) true) s1 = [OnMenuChange true]
  /\ trace (render (owner []) true) s2 = [Invalidate]
  /\ _open s3 = Some false
  /\ trace (render (owner []) true) s3 = []
  /\ trace (render (owner three_results) true)
           (exec (_onInputKey show_string dojoKeys (owner three_results) 27)
                 s2) = [OnMenuChange false].
Proof. cbv zeta. repeat split; reflexivity. Qed.

Lemma validity_normalizes_and_helper_text_when_closed_witness :
  validity (owner_of three_results None (Some (ValidBoolean false)))
  = (Some false, None)
  /\ validity (owner_of three_results None
                 (Some (ValidObject (Some true) (Some "fine"))))
     = (Some true, Some "fine")
  /\ validity (owner three_results) = (None, None)
  /\ helperTextNode
       (fst (fst (render (owner_of three_results None
                            (Some (ValidObject (Some false) (Some "bad"))))
                         true initial)))
     = Some (MkHelperText (Some "bad") (Some false))
  /\ helperTextNode
       (fst (fst (render (owner three_results) true shown_open))) = None.
Proof.
  split; [|split; [|split; [|split]]].
  - destruct (validity_normalizes_and_helper_text_when_closed
                (owner_of three_results None (Some (ValidBoolean false)))
                true initial) as (H & _).
    exact (H false eq_refl).
  - destruct (validity_normalizes_and_helper_text_when_closed
                (owner_of three_results None
                   (Some (ValidObject (Some true) (Some "fine"))))
                true initial) as (_ & H & _).
    exact (H (Some true) (Some "fine") eq_refl).
  - destruct (validity_normalizes_and_helper_text_when_closed
                (owner three_results) true initial) as (_ & _ & H & _).
    exact (H eq_refl).
  - destruct (validity_normalizes_and_helper_text_when_closed
                (owner_of three_results None
                   (Some (ValidObject (Some false) (Some "bad"))))
                true initial) as (_ & _ & _ & H & _).
    exact H.
  - destruct (validity_normalizes_and_helper_text_when_closed
                (owner three_results) true shown_open) as (_ & _ & _ & H & _).
    exact H.
Defined.

(** * Further properties of the controller *)

(** Evaluates projections and splits on the conditions left in the
    goal. *)
Ltac state_step :=
  cbn [fst snd app _open _wasOpen _activeIndex _ignoreBlur
       _menuHasVisualFocus with_open with_wasOpen with_activeIndex
       with_ignoreBlur with_menuHasVisualFocus negb andb orb truthy] in *.

Ltac split_ifs :=
  repeat (state_step;
          match goal with
          | |- context [if ?b then _ else _] => destruct b eqn:?
          end);
  state_step.

Ltac split_keys :=
  repeat (state_step;
          match goal with
          | |- context [Z.eqb ?a ?b] =>
              destruct (Z.eqb_spec a b); try (exfalso; congruence)
          end);
  state_step.

Ltac use_conditions :=
  repeat match goal with
         | H : ?x = true |- context [?x] => rewrite H
         | H : ?x = false |- context [?x] => rewrite H
         end;
  state_step.

Section MoreFacts.

Variable R : Type.
Variable show : R -> string.
Variable K : Keys.

Implicit Types (p : Properties R) (s : State) (e : Event).

(** ** Which handler touches which flag *)

(** X1: the ignore-blur flag is set only by a mouse-down on the
    dropdown and cleared only by the blur that consumes it; the
    menu-visual-focus flag is set only by a key and cleared only by
    hovering the dropdown. *)
Theorem handlers_frame_blur_and_focus_flags p s e :
  _ignoreBlur (exec (dispatch show K p e) s) =
    match e with
    | ResultMouseDown => Some true
    | InputBlur => if truthy (_ignoreBlur s) then Some false else _ignoreBlur s
    | _ => _ignoreBlur s
    end
  /\ _menuHasVisualFocus (exec (dispatch show K p e) s) =
    match e with
    | InputKey _ => true
    | ResultHover => false
    | _ => _menuHasVisualFocus s
    end.
Proof.
  destruct e; cbn [dispatch]; run_method;
    destruct s as [a ib mh o w]; split_ifs; split; reflexivity.
Qed.

Lemma dispatch_wasOpen p s e :
  _wasOpen (exec (dispatch show K p e) s) = _wasOpen s.
Proof.
  destruct e; cbn [dispatch]; run_method;
    destruct s as [a ib mh o w]; split_ifs; reflexivity.
Qed.

Lemma exec_then {A} (m : M R A) (k : M R unit) s :
  exec (bind m (fun _ => k)) s = exec k (exec m s).
Proof.
  unfold exec, bind. destruct (m s) as [[a s1] t1].
  cbn [fst snd]. destruct (k s1) as [[b s2] t2]. reflexivity.
Qed.

Lemma render_wasOpen p (cf : bool) s :
  _wasOpen (exec (render p cf) s) = _open (exec (render p cf) s).
Proof.
  unfold render. destruct (validity p) as [v m]. run_method.
  destruct s as [a ib mh o w]; split_ifs; reflexivity.
Qed.

(** X2: between two renders the previous-open flag holds the open flag
    as the last render left it, whatever handlers ran since. *)
Theorem wasOpen_tracks_last_render p (cf : bool)
        (events : list (Properties R * Event)) s :
  _wasOpen (exec (dispatch_all show K events) (exec (render p cf) s))
  = _open (exec (render p cf) s).
Proof.
  rewrite <- render_wasOpen. generalize (exec (render p cf) s) as s1.
  induction events as [|[q e] rest IH]; intro s1.
  - reflexivity.
  - cbn [dispatch_all]. rewrite exec_then, IH. apply dispatch_wasOpen.
Qed.

(** ** Rendering *)

(** X3: a second render under the same properties changes nothing: it
    returns the same tree, leaves the state as the first render left it
    and makes no call, so a render never keeps invalidating itself. *)
Theorem render_is_stable p (cf : bool) s :
  render p cf (exec (render p cf) s)
  = (fst (fst (render p cf s)), exec (render p cf) s, []).
Proof.
  unfold render. destruct (validity p) as [v m]. run_method.
  unfold renderMenu.
  destruct s as [a ib mh [[|]|] [[|]|]];
    destruct (onMenuChange p), (length_of (results_or_empty p) =? 0);
    reflexivity.
Qed.

(** X4: a render changes neither the active index nor the ignore-blur
    and menu-visual-focus flags, never turns the open flag on, and calls
    nothing but [onMenuChange] and [invalidate]; it invalidates exactly
    when it closes an open menu for lack of results. *)
Theorem render_frame p (cf : bool) s :
  _activeIndex (exec (render p cf) s) = _activeIndex s
  /\ _ignoreBlur (exec (render p cf) s) = _ignoreBlur s
  /\ _menuHasVisualFocus (exec (render p cf) s) = _menuHasVisualFocus s
  /\ forallb (fun c => is_any_OnMenuChange c || is_Invalidate c)
             (trace (render p cf) s) = true
  /\ count_calls (@is_Invalidate R) (trace (render p cf) s)
     = (if (length_of (results_or_empty p) =? 0) && truthy (_open s)
        then 1%nat else 0%nat)
  /\ (count_calls (@is_any_OnMenuChange R) (trace (render p cf) s) <= 1)%nat.
Proof.
  unfold render. destruct (validity p) as [v m]. run_method.
  destruct s as [a ib mh [[|]|] [[|]|]];
    destruct (onMenuChange p), (length_of (results_or_empty p) =? 0);
    cbn; repeat split; try reflexivity; lia.
Qed.

(** X5: every render shows exactly one of the helper text and the
    dropdown, and the ARIA state follows the dropdown: [aria-expanded],
    [aria-owns] and the input's active descendant are set exactly when
    the dropdown is rendered, the latter naming the listbox's active
    row; the dropdown is rendered exactly when the menu is open and
    there are results. *)
Theorem render_shows_helper_or_menu p (cf : bool) s :
  let out := fst (fst (render p cf s)) in
  is_some (helperTextNode out) = negb (is_some (menuNode out))
  /\ aria_expanded out = is_some (menuNode out)
  /\ aria_owns_menu out = is_some (menuNode out)
  /\ aria_activedescendant out = option_map (@listbox_activeIndex R) (menuNode out)
  /\ menuNode out =
     (if truthy (_open s) && negb (length_of (results_or_empty p) =? 0)
      then Some (MkListbox (_activeIndex s) (_menuHasVisualFocus s)
                           (results_or_empty p))
      else None).
Proof.
  cbv zeta. unfold render. destruct (validity p) as [v m]. run_method.
  unfold renderMenu.
  destruct s as [a ib mh [[|]|] [[|]|]];
    destruct (onMenuChange p), (length_of (results_or_empty p) =? 0);
    cbn; repeat split; reflexivity.
Qed.

(** ** Keys *)

(** X6: the key handler suppresses the browser's default action for Up
    and Down, once, and for no other key. *)
Theorem preventDefault_only_on_arrows p s (key : Z) :
  count_calls (@is_PreventDefault R) (trace (_onInputKey show K p key) s)
  = (if (key =? Keys_Up K) || (key =? Keys_Down K) then 1%nat else 0%nat).
Proof.
  run_method. destruct s as [a ib mh o w].
  destruct (key =? Keys_Up K); [split_ifs; reflexivity|].
  destruct (key =? Keys_Down K); [split_ifs; reflexivity|].
  split_ifs; reflexivity.
Qed.

(** ** Opening and closing *)

Lemma keys_neq_of_distinct :
  keys_distinct K ->
  Keys_Up K <> Keys_Down K /\ Keys_Up K <> Keys_Escape K
  /\ Keys_Up K <> Keys_Enter K /\ Keys_Up K <> Keys_Space K
  /\ Keys_Down K <> Keys_Escape K /\ Keys_Down K <> Keys_Enter K
  /\ Keys_Down K <> Keys_Space K /\ Keys_Escape K <> Keys_Enter K
  /\ Keys_Escape K <> Keys_Space K.
Proof. intro H. pose proof (keys_distinct_inv H). tauto. Qed.

(** X7: a closed menu is opened exactly by the Down key, by typing, by
    a click on the trigger and by focus under [openOnFocus], each only
    while the widget is neither disabled nor read-only; the handler
    that opens it puts the active index at 0 and requests results
    once, and no other handler requests results. *)
Theorem menu_opens_exactly_on_triggers p s e :
  keys_distinct K ->
  truthy (_open s) = false ->
  truthy (_open (exec (dispatch show K p e) s)) = opening_trigger K p e
  /\ count_calls (@is_OnRequestResults R) (trace (dispatch show K p e) s)
     = (if opening_trigger K p e && onRequestResults p
        then 1%nat else 0%nat)
  /\ (opening_trigger K p e = true ->
      _activeIndex (exec (dispatch show K p e) s) = 0).
Proof.
  intros HK Hclosed.
  destruct (keys_neq_of_distinct HK)
    as (? & ? & ? & ? & ? & ? & ? & ? & ?).
  unfold opening_trigger, enabled.
  destruct s as [a ib mh [[|]|] w]; try discriminate Hclosed;
    (destruct e; cbn [dispatch]; run_method;
     destruct (truthy (disabled p)), (truthy (readOnly p)),
       (onRequestResults p);
     split_keys; split_ifs;
     repeat split; try reflexivity; try discriminate; try congruence).
Qed.

(** X8: an open menu is closed exactly by a blur that is not
    swallowed, by Escape, by Enter or Space on an active result that is
    not disabled (results being present) and by a selection in the
    listbox; every other handler leaves it open. *)
Theorem menu_closes_exactly_on_triggers p s e :
  keys_distinct K ->
  truthy (_open s) = true ->
  truthy (_open (exec (dispatch show K p e) s))
  = negb (closing_trigger K p s e).
Proof.
  intros HK Hopen.
  destruct (keys_neq_of_distinct HK)
    as (? & ? & ? & ? & ? & ? & ? & ? & ?).
  unfold closing_trigger.
  destruct s as [a ib mh [[|]|] w]; try discriminate Hopen;
    (destruct e; cbn [dispatch]; run_method;
     destruct (truthy (disabled p)), (truthy (readOnly p));
     split_keys; split_ifs; use_conditions;
     try reflexivity; try discriminate; try congruence).
Qed.

(** X9: while [disabled] or [readOnly] is set no handler requests
    results, and no handler turns a closed menu into an open one. *)
Theorem disabled_widget_never_opens p s e :
  enabled p = false ->
  count_calls (@is_OnRequestResults R) (trace (dispatch show K p e) s) = 0%nat
  /\ (truthy (_open (exec (dispatch show K p e) s)) = true ->
      truthy (_open s) = true).
Proof.
  unfold enabled. intro Hdis.
  destruct s as [a ib mh [[|]|] w];
    (destruct e; cbn [dispatch]; run_method;
     destruct (truthy (disabled p)), (truthy (readOnly p));
     try discriminate Hdis; split_ifs;
     split; try reflexivity; try discriminate; try congruence).
Qed.

(** ** What the next render announces *)

Lemma render_announces q (cf : bool) s :
  count_calls (is_OnMenuChange (R:=R) true) (trace (render q cf) s)
  = (if onMenuChange q && truthy (_open s) && negb (truthy (_wasOpen s))
     then 1%nat else 0%nat)
  /\ count_calls (is_OnMenuChange (R:=R) false) (trace (render q cf) s)
     = (if onMenuChange q && negb (truthy (_open s)) && truthy (_wasOpen s)
        then 1%nat else 0%nat).
Proof.
  unfold render. destruct (validity q) as [v m]. run_method.
  destruct s as [a ib mh [[|]|] [[|]|]];
    destruct (onMenuChange q), (length_of (results_or_empty q) =? 0);
    split; reflexivity.
Qed.

(** X10: when the last render showed the menu open and a handler
    leaves it closed, the next render calls [onMenuChange(false)] once
    and never [onMenuChange(true)]. *)
Theorem handler_close_is_announced p q (cf : bool) s e :
  truthy (_wasOpen s) = true ->
  truthy (_open (exec (dispatch show K p e) s)) = false ->
  count_calls (is_OnMenuChange (R:=R) false)
              (trace (render q cf) (exec (dispatch show K p e) s))
  = (if onMenuChange q then 1%nat else 0%nat)
  /\ count_calls (is_OnMenuChange (R:=R) true)
                 (trace (render q cf) (exec (dispatch show K p e) s))
     = 0%nat.
Proof.
  intros Hw Hc.
  destruct (render_announces q cf (exec (dispatch show K p e) s))
    as [-> ->].
  rewrite dispatch_wasOpen, Hw, Hc.
  destruct (onMenuChange q); split; reflexivity.
Qed.

(** X11: when the last render showed the menu closed and a handler
    leaves it open, the next render calls [onMenuChange(true)] once and
    never [onMenuChange(false)], whether or not there are results to
    show. *)
Theorem handler_open_is_announced p q (cf : bool) s e :
  truthy (_wasOpen s) = false ->
  truthy (_open (exec (dispatch show K p e) s)) = true ->
  count_calls (is_OnMenuChange (R:=R) true)
              (trace (render q cf) (exec (dispatch show K p e) s))
  = (if onMenuChange q then 1%nat else 0%nat)
  /\ count_calls (is_OnMenuChange (R:=R) false)
                 (trace (render q cf) (exec (dispatch show K p e) s))
     = 0%nat.
Proof.
  intros Hw Ho.
  destruct (render_announces q cf (exec (dispatch show K p e) s))
    as [-> ->].
  rewrite dispatch_wasOpen, Hw, Ho.
  destruct (onMenuChange q); split; reflexivity.
Qed.

(** ** More keys *)



(** X14: Enter or Space while the menu is closed, or while there are no
    results, selects nothing: no call is made and only the
    menu-visual-focus flag is set. *)
Theorem enter_without_open_results_is_ignored p s (key : Z) :
  keys_distinct K ->
  key = Keys_Enter K \/ key = Keys_Space K ->
  truthy (_open s) = false \/ length_of (results_or_empty p) = 0 ->
  _onInputKey show K p key s = (tt, with_menuHasVisualFocus true s, []).
Proof.
  intros HK Hkey Hno.
  destruct (keys_neq_of_distinct HK)
    as (? & ? & ? & ? & ? & ? & ? & ? & ?).
  assert (Hc : truthy (_open s)
               && (length_of (results_or_empty p) >? 0) = false).
  { destruct Hno as [-> | ->]; [reflexivity | apply Bool.andb_false_r]. }
  destruct Hkey; subst key; run_method; split_keys;
    rewrite Hc; reflexivity.
Qed.




(** X16: with results present, one move brings any active index that
    is not below -1 into range, be it stale after the results shrank or
    left at -1 by End on an empty list. *)
Theorem move_brings_index_into_range p s (o : Operation) :
  1 <= length_of (results_or_empty p) ->
  -1 <= _activeIndex s ->
  0 <= _activeIndex (exec (_moveActiveIndex p o) s)
    < length_of (results_or_empty p).
Proof.
  intros Hn Ha. rewrite moveActiveIndex_activeIndex by lia.
  set (n := length_of (results_or_empty p)) in *.
  destruct (Z_lt_le_dec (_activeIndex s + Operation_value o + n) 0) as [Hneg|Hpos].
  - assert (n = 1 /\ _activeIndex s + Operation_value o = -2)
      by (destruct o; cbn [Operation_value] in *; lia).
    destruct H as [-> ->]. cbn. lia.
  - rewrite Z.rem_mod_nonneg by lia. apply Z.mod_pos_bound. lia.
Qed.

(** ** Labels, selection and identifiers *)

(** X17: with neither [getResultSelected] nor [getResultLabel] supplied,
    a result is marked selected exactly when its string representation
    is the current value; without a value none is. *)
Theorem default_selection_compares_representation p (r : any R) :
  getResultSelected p = None ->
  getResultLabel p = None ->
  (_getResultSelected show p r = true
   <-> value p = Some (template_any show r)).
Proof.
  intros Hs Hl. unfold _getResultSelected, _getResultLabel.
  rewrite Hs, Hl. cbn [DNode_strict_eq_string].
  destruct (value p) as [v|].
  - rewrite String.eqb_eq. split; [intros ->; reflexivity|].
    intros [= ->]. reflexivity.
  - split; discriminate.
Qed.

(** X18: when the owner feeds the string that a selection handed to
    [onValue] back as [value], the selected result is the one marked
    selected, provided its label is a string and the owner overrides
    neither the value nor the selection test. *)
Theorem selected_value_marks_its_result p (r : any R) (l : string) :
  getResultSelected p = None ->
  getResultValue p = None ->
  _getResultLabel show p r = DString l ->
  value p = Some (_getResultValue show p r) ->
  _getResultSelected show p r = true.
Proof.
  intros Hs Hv Hl Hval.
  unfold _getResultSelected. rewrite Hs, Hl, Hval.
  unfold _getResultValue, getResultValue_or_label. rewrite Hv.
  unfold _getResultLabel in Hl.
  destruct (getResultLabel p) as [f|].
  - rewrite Hl. cbn. apply String.eqb_refl.
  - injection Hl as <-. cbn. apply String.eqb_refl.
Qed.

Lemma append_cancel_l (a b c : string) :
  (a ++ b)%string = (a ++ c)%string -> b = c.
Proof.
  induction a as [|ch a IH]; cbn; intro H; [exact H|].
  injection H as H. exact (IH H).
Qed.

Lemma decimal_digits_inj (i j : Z) :
  NilEmpty.string_of_int (Z.to_int i) = NilEmpty.string_of_int (Z.to_int j) ->
  i = j.
Proof.
  intro H.
  apply (f_equal NilEmpty.int_of_string) in H.
  rewrite !NilEmpty.isi in H. injection H as H.
  apply (f_equal Z.of_int) in H.
  now rewrite !DecimalZ.of_to in H.
Qed.

(** X19: for safe-integer indices every row has an id, the ids of two
    rows are equal only for equal indices, and no row id is the menu
    id, so the input's active descendant names one row. *)
Theorem result_ids_are_distinct (idBase : string) (r1 r2 : any R) (i j : Z) :
  safe_integer i = true ->
  safe_integer j = true ->
  exists a b : string,
    _getResultId idBase r1 i = Some a
    /\ _getResultId idBase r2 j = Some b
    /\ (a = b <-> i = j)
    /\ a <> _getMenuId idBase.
Proof.
  intros Hi Hj. unfold _getResultId, template_number, _getMenuId.
  rewrite Hi, Hj.
  eexists; eexists. split; [reflexivity|]. split; [reflexivity|].
  split; [split|].
  - intro H. apply append_cancel_l in H. apply append_cancel_l in H.
    now apply decimal_digits_inj.
  - intros ->. reflexivity.
  - intro H. apply append_cancel_l in H. discriminate H.
Qed.


(** ** Re-rendering *)

(** X21: a handler that changes the open flag or the active index asks
    for a re-render: without a call of [invalidate] both are as they
    were. *)
Theorem silent_handler_keeps_open_and_index p s e :
  count_calls (@is_Invalidate R) (trace (dispatch show K p e) s) = 0%nat ->
  _open (exec (dispatch show K p e) s) = _open s
  /\ _activeIndex (exec (dispatch show K p e) s) = _activeIndex s.
Proof.
  destruct s as [a ib mh o w].
  destruct e; cbn [dispatch]; run_method; split_ifs; intro Hcount;
    first [split; reflexivity | cbn in Hcount; discriminate Hcount].
Qed.

End MoreFacts.

(** * Concrete runs of the further properties *)

Example template_number_samples :
  template_number 0 = Some "0" /\ template_number 12 = Some "12"
  /\ template_number (-1) = Some "-1"
  /\ template_number (10 ^ 21) = None
  /\ _getResultId "id" (Some "bee") 1 = Some "id-result1".
Proof. repeat split; reflexivity. Qed.

Lemma result_ids_are_distinct_witness :
  (safe_integer 1 = true /\ safe_integer 2 = true)
  /\ exists a b : string,
       _getResultId "id" (Some "bee") 1 = Some a
       /\ _getResultId "id" (Some "cat") 2 = Some b
       /\ (a = b <-> 1 = 2)
       /\ a <> _getMenuId "id".
Proof.
  split; [split; reflexivity|].
  exact (result_ids_are_distinct "id" (Some "bee") (Some "cat") 1 2
           eq_refl eq_refl).
Defined.

Lemma menu_opens_exactly_on_triggers_witness :
  truthy (_open initial) = false
  /\ _open (exec (dispatch show_string dojoKeys (owner three_results)
                           ArrowClick) initial) = Some true
  /\ truthy (_open (exec (dispatch show_string dojoKeys
                            (custom_owner three_results (Some true) None None)
                            ArrowClick) initial)) = false
  /\ count_calls (@is_OnRequestResults string)
       (trace (dispatch show_string dojoKeys (owner three_results)
                        ArrowClick) initial) = 1%nat.
Proof.
  split; [reflexivity|].
  destruct (menu_opens_exactly_on_triggers show_string
              (owner three_results) initial ArrowClick dojoKeys_distinct
              eq_refl) as (_ & H2 & _).
  destruct (menu_opens_exactly_on_triggers show_string
              (custom_owner three_results (Some true) None None) initial
              ArrowClick dojoKeys_distinct eq_refl) as (H1 & _).
  split; [reflexivity | split; [exact H1 | exact H2]].
Defined.

Lemma menu_closes_exactly_on_triggers_witness :
  truthy (_open shown_open) = true
  /\ truthy (_open (exec (dispatch show_string dojoKeys (owner three_results)
                                   InputBlur) shown_open)) = false
  /\ truthy (_open (exec (dispatch show_string dojoKeys (owner three_results)
                                   (InputKey 38)) shown_open)) = true.
Proof.
  split; [reflexivity|]. split.
  - exact (menu_closes_exactly_on_triggers show_string (owner three_results)
             shown_open InputBlur dojoKeys_distinct eq_refl).
  - exact (menu_closes_exactly_on_triggers show_string (owner three_results)
             shown_open (InputKey 38) dojoKeys_distinct eq_refl).
Defined.

Lemma disabled_widget_never_opens_witness :
  enabled (custom_owner three_results (Some true) None None) = false
  /\ count_calls (@is_OnRequestResults string)
       (trace (dispatch show_string dojoKeys
                 (custom_owner three_results (Some true) None None)
                 (InputValue "b")) initial) = 0%nat.
Proof.
  split; [reflexivity|].
  exact (proj1 (disabled_widget_never_opens show_string dojoKeys
                  (custom_owner three_results (Some true) None None)
                  initial (InputValue "b") eq_refl)).
Defined.

Lemma handler_close_is_announced_witness :
  (truthy (_wasOpen shown_open) = true
   /\ truthy (_open (exec (dispatch show_string dojoKeys
                             (owner three_results) (InputKey 27))
                          shown_open)) = false)
  /\ count_calls (@is_OnMenuChange string false)
       (trace (render (owner three_results) true)
              (exec (dispatch show_string dojoKeys (owner three_results)
                              (InputKey 27)) shown_open)) = 1%nat
  /\ count_calls (@is_OnMenuChange string true)
       (trace (render (owner three_results) true)
              (exec (dispatch show_string dojoKeys (owner three_results)
                              (InputKey 27)) shown_open)) = 0%nat.
Proof.
  split; [split; reflexivity|].
  exact (handler_close_is_announced show_string dojoKeys
           (owner three_results) (owner three_results) true shown_open
           (InputKey 27) eq_refl eq_refl).
Defined.

Lemma handler_open_is_announced_witness :
  (truthy (_wasOpen initial) = false
   /\ truthy (_open (exec (dispatch show_string dojoKeys
                             (owner three_results) (InputKey 40))
                          initial)) = true)
  /\ count_calls (@is_OnMenuChange string true)
       (trace (render (owner []) true)
              (exec (dispatch show_string dojoKeys (owner three_results)
                              (InputKey 40)) initial)) = 1%nat
  /\ count_calls (@is_OnMenuChange string false)
       (trace (render (owner []) true)
              (exec (dispatch show_string dojoKeys (owner three_results)
                              (InputKey 40)) initial)) = 0%nat.
Proof.
  split; [split; reflexivity|].
  exact (handler_open_is_announced show_string dojoKeys
           (owner three_results) (owner []) true initial
           (InputKey 40) eq_refl eq_refl).
Defined.



Lemma enter_without_open_results_is_ignored_witness :
  length_of (results_or_empty (owner [])) = 0
  /\ _onInputKey show_string dojoKeys (owner []) 32 shown_open
     = (tt, with_menuHasVisualFocus true shown_open, []).
Proof.
  split; [reflexivity|].
  exact (enter_without_open_results_is_ignored show_string (owner [])
           shown_open dojoKeys_distinct (or_intror eq_refl)
           (or_intror eq_refl)).
Defined.


Lemma move_brings_index_into_range_witness :
  (1 <= length_of (results_or_empty (owner two_results))
   /\ -1 <= _activeIndex (with_activeIndex 5 initial))
  /\ 0 <= _activeIndex
            (exec (_moveActiveIndex (owner two_results) decrease)
                  (with_activeIndex 5 initial))
       < length_of (results_or_empty (owner two_results)).
Proof.
  assert (H1 : 1 <= length_of (results_or_empty (owner two_results)))
    by (vm_compute; discriminate).
  assert (H2 : -1 <= _activeIndex (with_activeIndex 5 initial))
    by (vm_compute; discriminate).
  split; [exact (conj H1 H2)|].
  exact (move_brings_index_into_range (owner two_results)
           (with_activeIndex 5 initial) decrease H1 H2).
Defined.

Lemma default_selection_compares_representation_witness :
  _getResultSelected show_string
    (custom_owner three_results None None (Some "bee")) (Some "bee") = true
  <-> value (custom_owner three_results None None (Some "bee"))
      = Some (template_any show_string (Some "bee")).
Proof.
  exact (default_selection_compares_representation show_string
           (custom_owner three_results None None (Some "bee")) (Some "bee")
           eq_refl eq_refl).
Defined.

Lemma selected_value_marks_its_result_witness :
  _getResultLabel show_string
    (custom_owner three_results None
       (Some (fun r => DString ("the " ++ template_any show_string r)))
       (Some "the bee")) (Some "bee") = DString "the bee"
  /\ _getResultSelected show_string
       (custom_owner three_results None
          (Some (fun r => DString ("the " ++ template_any show_string r)))
          (Some "the bee")) (Some "bee") = true.
Proof.
  split; [reflexivity|].
  exact (selected_value_marks_its_result show_string
           (custom_owner three_results None
              (Some (fun r => DString ("the " ++ template_any show_string r)))
              (Some "the bee")) (Some "bee") eq_refl eq_refl eq_refl eq_refl).
Defined.

Lemma silent_handler_keeps_open_and_index_witness :
  count_calls (@is_Invalidate string)
    (trace (dispatch show_string dojoKeys (owner three_results) (InputKey 13))
           initial) = 0%nat
  /\ _open (exec (dispatch show_string dojoKeys (owner three_results)
                           (InputKey 13)) initial) = None
  /\ _activeIndex (exec (dispatch show_string dojoKeys (owner three_results)
                                  (InputKey 13)) initial) = 0.
Proof.
  split; [reflexivity|].
  exact (silent_handler_keeps_open_and_index show_string dojoKeys
           (owner three_results) initial (InputKey 13) eq_refl).
Defined.
